(** * CurvatureSliders: a shallow embedding of [curvatureSliders.py]

    The program is a small adapter between a browser UI (two sliders and a
    stop button, held by a Meshcat object), a closed-form kinematics map
    ([CC2AGRB]) and the generalized positions of a simulated plant.

    Numbers are IEEE binary64 values, as Python's [float] and numpy's
    [float64] are: Rocq's primitive floats compute the same products,
    quotients and comparisons bit for bit.  Python exceptions are values of
    [exn]; the objects the program mutates (the Meshcat controls, the plant
    context, the clock, what was published) are fields of an explicit
    [World] threaded through a small state-and-exception monad. *)

From Stdlib Require Import Floats ZArith Lia.
From stdpp Require Import gmap strings list.

Set Warnings "-inexact-float".

(** ** Python: exceptions, float division, indexing *)

Module Py.

Inductive exn : Set :=
| IndexError          (* sequence index out of range *)
| ZeroDivisionError   (* float division by zero *)
| ValueError          (* numpy: operands could not be broadcast together *)
| RuntimeError.       (* an exception thrown by the host framework *)

Inductive result (A : Type) : Type :=
| Ok (a : A)
| Raise (e : exn).
Arguments Ok {A} a.
Arguments Raise {A} e.

#[export] Instance result_ret : MRet result := fun _ a => Ok a.

#[export] Instance result_bind : MBind result := fun _ _ k r =>
  match r with
  | Ok a => k a
  | Raise e => Raise e
  end.

(** [x != 0] on floats: true on NaN, false on both signed zeros. *)
Definition ne0 (x : float) : bool := negb (x =? 0)%float.

(** [x / y].  Python raises on a zero divisor; numpy signals its
    divide/invalid error there.  Both are modelled as the exception, which
    is the stricter reading. *)
Definition truediv (x y : float) : result float :=
  if (y =? 0)%float then Raise ZeroDivisionError else Ok (x / y)%float.

(** [q[i]] on a tuple or list, for a non-negative literal index. *)
Definition getitem {A} (q : list A) (i : nat) : result A :=
  match q !! i with
  | Some x => Ok x
  | None => Raise IndexError
  end.

End Py.
Export Py.

(** ** numpy: the array operations the polling loop uses *)

Module np.

(** [np.pi], the binary64 value nearest to pi. *)
Definition pi : float := 0x1.921fb54442d18p+1%float.

(** [a - b] on one-dimensional arrays, with numpy's broadcasting: equal
    lengths combine pointwise, a one-element operand is stretched, and
    anything else raises. *)
Definition subtract (a b : list float) : result (list float) :=
  if decide (length a = length b) then Ok (zip_with PrimFloat.sub a b)
  else match a, b with
       | _, [y] => Ok (map (fun x => x - y)%float a)
       | [x], _ => Ok (map (fun y => x - y)%float b)
       | _, _ => Raise ValueError
       end.

(** [np.abs(a)] *)
Definition abs (a : list float) : list float := map PrimFloat.abs a.

(** [a < c] against a scalar *)
Definition less (a : list float) (c : float) : list bool :=
  map (fun x => x <? c)%float a.

(** [a.all()] *)
Definition all (a : list bool) : bool := forallb id a.

End np.

(** A polynomial stand-in for libm's sine (the Taylor series up to the
    thirteenth power), used only to run the examples: [np.sin] itself is a
    parameter of the development and no theorem depends on its values. *)
Definition sin_series (x : float) : float :=
  let x2 := (x * x)%float in
  (x * (1 - x2 / 6 * (1 - x2 / 20 * (1 - x2 / 42 * (1 - x2 / 72 *
       (1 - x2 / 110 * (1 - x2 / 156)))))))%float.

(** ** The host UI: Meshcat controls

    The controls are the part of the host framework the program talks to:
    a slider is a scalar inside a min/max/step range, a button counts its
    clicks.  A name denotes at most one control. *)

Module Meshcat.

Record Slider : Set := mkSlider {
  s_min : float;
  s_max : float;
  s_step : float;
  s_value : float
}.

Record t : Type := mk {
  sliders : gmap string Slider;
  buttons : gmap string Z
}.

Definition empty : t := mk ∅ ∅.

Definition taken (m : t) (name : string) : bool :=
  bool_decide (is_Some (sliders m !! name)) ||
  bool_decide (is_Some (buttons m !! name)).

(** [AddSlider(name, min, max, step, value)]: refuses a name in use. *)
Definition AddSlider (name : string) (min max step value : float) (m : t)
  : result t :=
  if taken m name then Raise RuntimeError
  else Ok (mk (<[name := mkSlider min max step value]> (sliders m))
              (buttons m)).

(** [SetSliderValue(name, value)] *)
Definition SetSliderValue (name : string) (value : float) (m : t)
  : result t :=
  match sliders m !! name with
  | Some s =>
      Ok (mk (<[name := mkSlider (s_min s) (s_max s) (s_step s) value]>
                (sliders m))
             (buttons m))
  | None => Raise RuntimeError
  end.

(** [GetSliderValue(name)] *)
Definition GetSliderValue (name : string) (m : t) : result float :=
  match sliders m !! name with
  | Some s => Ok (s_value s)
  | None => Raise RuntimeError
  end.

(** [AddButton(name)]: a new button starts at zero clicks, an existing
    one is reset to zero; a slider of that name is an error. *)
Definition AddButton (name : string) (m : t) : result t :=
  match sliders m !! name with
  | Some _ => Raise RuntimeError
  | None => Ok (mk (sliders m) (<[name := 0%Z]> (buttons m)))
  end.

(** [GetButtonClicks(name)] *)
Definition GetButtonClicks (name : string) (m : t) : result Z :=
  match buttons m !! name with
  | Some c => Ok c
  | None => Raise RuntimeError
  end.

(** What a person at the browser does between two polls. *)
Inductive UserAction : Set :=
| MoveSlider (name : string) (value : float)
| ClickButton (name : string).

Definition act (a : UserAction) (m : t) : t :=
  match a with
  | MoveSlider name v =>
      match SetSliderValue name v m with
      | Ok m' => m'
      | Raise _ => m
      end
  | ClickButton name =>
      match buttons m !! name with
      | Some c => mk (sliders m) (<[name := (c + 1)%Z]> (buttons m))
      | None => m
      end
  end.

Definition acts (l : list UserAction) (m : t) : t :=
  foldl (fun m a => act a m) m l.

End Meshcat.

(** ** The world the program runs in *)

(** What leaves the process: log records, frames sent to the visualizer
    (with the plant positions they show) and the time spent asleep. *)
Inductive Event : Type :=
| LogInfo (format arg : string)
| Publish (positions : list float)
| Sleep (seconds : float).

Record World : Type := mkWorld {
  meshcat : Meshcat.t;          (* the controls shared with the browser *)
  plant_context : list float;   (* generalized positions in the plant's context *)
  time_calls : nat;             (* how often the clock has been read *)
  polls : nat;                  (* how often the loop condition has been evaluated *)
  trace : list Event
}.

Inductive Outcome (A : Type) : Type :=
| Done (a : A) (w : World)
| Raised (e : exn) (w : World)
| Polling (w : World).          (* the loop is still running when the fuel is spent *)
Arguments Done {A} a w.
Arguments Raised {A} e w.
Arguments Polling {A} w.

Definition M (A : Type) : Type := World -> Outcome A.

#[export] Instance M_ret : MRet M := fun _ a w => Done a w.

#[export] Instance M_bind : MBind M := fun _ _ k c w =>
  match c w with
  | Done a w' => k a w'
  | Raised e w' => Raised e w'
  | Polling w' => Polling w'
  end.

(** A pure computation that may raise. *)
Definition lift {A} (r : result A) : M A := fun w =>
  match r with
  | Ok a => Done a w
  | Raise e => Raised e w
  end.

(** A query and an update of the Meshcat controls. *)
Definition ask {A} (f : Meshcat.t -> result A) : M A := fun w =>
  lift (f (meshcat w)) w.

Definition tell (f : Meshcat.t -> result Meshcat.t) : M unit := fun w =>
  match f (meshcat w) with
  | Ok m => Done tt (mkWorld m (plant_context w) (time_calls w) (polls w) (trace w))
  | Raise e => Raised e w
  end.

Definition emit (e : Event) : M unit := fun w =>
  Done tt (mkWorld (meshcat w) (plant_context w) (time_calls w) (polls w)
                   (trace w ++ [e])).

(** The plant, as far as the program uses it: the positions a default
    context starts from. *)
Record Plant : Type := mkPlant {
  default_positions : list float
}.

(** [diagram.CreateDefaultContext()] and the plant's context inside it:
    the positions start from the plant's defaults. *)
Definition CreateDefaultContext (plant : Plant) : M unit := fun w =>
  Done tt (mkWorld (meshcat w) (default_positions plant)
                   (time_calls w) (polls w) (trace w)).

(** [plant.GetPositions(plant_context)] *)
Definition GetPositions : M (list float) := fun w => Done (plant_context w) w.

(** [plant.SetPositions(plant_context, q)]: the host insists on one value
    per generalized position. *)
Definition SetPositions (q : list float) : M unit := fun w =>
  if decide (length q = length (plant_context w))
  then Done tt (mkWorld (meshcat w) q (time_calls w) (polls w) (trace w))
  else Raised RuntimeError w.

(** [diagram.Publish(root_context)] *)
Definition diagram_Publish : M unit := fun w => emit (Publish (plant_context w)) w.

(** [time.sleep(seconds)] *)
Definition time_sleep (seconds : float) : M unit := emit (Sleep seconds).

(** [logging.info(format, arg)] *)
Definition logging_info (format arg : string) : M unit := emit (LogInfo format arg).

(** [BasicVector.SetAtIndex(i, x)] *)
Definition SetAtIndex (i : nat) (x : float) (v : list float) : result (list float) :=
  if decide (i < length v) then Ok (<[i := x]> v) else Raise IndexError.

(** ** class CurvatureSliders *)

Record SliderDefault : Set := mkSliderDefault {
  name : string;
  default : float
}.

Definition _Q1 : SliderDefault := mkSliderDefault "q1" 0.0.
Definition _Q2 : SliderDefault := mkSliderDefault "q2" 0.0.

Record OutputPort : Set := mkOutputPort {
  port_name : string;
  port_size : nat;
  port_caching : bool
}.

(** The fields of an instance.  [_meshcat] is a reference to the shared
    controls, which live in the [World]. *)
Record CurvatureSliders : Type := mkSelf {
  output_ports : list OutputPort;
  _plant : Plant;
  _L : float
}.

Definition default_L : float := 0.2.
Definition default_timeout : float := 1e5.
Definition kButtonName : string := "Stop Curvature Sliders".

Inductive Flow : Set :=
| Again     (* go back to the loop condition *)
| Leave.    (* the condition failed, or [break] *)

(** ** Data for the examples *)

(** The straight two-segment arm of rest length 0.2 per segment. *)
Definition straight : list float := [0; 0.1; 0.1; 0; 0; 0.1; 0.1; 0]%float.

Definition arm : CurvatureSliders :=
  mkSelf [mkOutputPort "q1_q2" 2 false] (mkPlant straight) default_L.

Definition slider_at (value : float) : Meshcat.Slider :=
  Meshcat.mkSlider (-2.0 * np.pi) (2.0 * np.pi) 0.1 value.

(** Both sliders at rest, the stop button not yet clicked. *)
Definition controls_idle : Meshcat.t :=
  Meshcat.mk (<["q2" := slider_at 0]> (<["q1" := slider_at 0]> ∅))
             (<[kButtonName := 0%Z]> ∅).

(** The first slider moved to 1. *)
Definition controls_moved : Meshcat.t :=
  Meshcat.mk (<["q2" := slider_at 0]> (<["q1" := slider_at 1]> ∅))
             (<[kButtonName := 0%Z]> ∅).

(** The arm bent by the first slider at 1 (with [sin_series] for the sine). *)
Definition bent : list float :=
  [0.5; 0.095885107720840607; 0.095885107720840607; 0.5; 0; 0.1; 0.1; 0]%float.

Definition world_empty : World := mkWorld Meshcat.empty [] 0 0 [].
Definition world_idle : World := mkWorld controls_idle straight 1 0 [].
Definition world_moved : World := mkWorld controls_moved straight 1 0 [].

(** The stop button clicked once. *)
Definition controls_clicked : Meshcat.t :=
  Meshcat.mk (<["q2" := slider_at 0]> (<["q1" := slider_at 1]> ∅))
             (<[kButtonName := 1%Z]> ∅).

(** The first slider holding a NaN. *)
Definition controls_nan : Meshcat.t :=
  Meshcat.mk (<["q2" := slider_at 0]> (<["q1" := slider_at nan]> ∅))
             (<[kButtonName := 0%Z]> ∅).

Definition world_clicked : World := mkWorld controls_clicked straight 1 0 [].
Definition world_nan : World := mkWorld controls_nan straight 1 0 [].

(** A plant with three positions only. *)
Definition world_three : World := mkWorld controls_idle [0; 0.1; 0.1]%float 1 0 [].

(** Controls on which the name q2 is already in use. *)
Definition world_q2_taken : World :=
  mkWorld (Meshcat.mk (<["q2" := slider_at 0]> ∅) ∅) [] 0 0 [].

(** The controls the constructor leaves on empty ones. *)
Definition world_constructed : World :=
  mkWorld (Meshcat.mk (<["q2" := slider_at 0]> (<["q1" := slider_at 0]> ∅)) ∅) [] 0 0 [].

(** A clock that advances by one second per reading. *)
Definition clock_seconds (k : nat) : float := of_uint63 (Uint63.of_Z (Z.of_nat k)).

(** A session: the user moves the first slider before the third poll and
    clicks the stop button before the sixth. *)
Definition session (k : nat) : list Meshcat.UserAction :=
  match k with
  | 2 => [Meshcat.MoveSlider "q1" 1]
  | 5 => [Meshcat.ClickButton kButtonName]
  | _ => []
  end.

Section Program.

(** [np.sin] on a scalar. *)
Variable np_sin : float -> float.
(** The value of the [k]-th call of [time.time()]. *)
Variable wall_clock : nat -> float.
(** What the user did in the browser before the [k]-th evaluation of the
    loop condition. *)
Variable browser : nat -> list Meshcat.UserAction.

(** [time.time()] *)
Definition time_time : M float := fun w =>
  Done (wall_clock (time_calls w))
       (mkWorld (meshcat w) (plant_context w) (S (time_calls w)) (polls w) (trace w)).

(** The browser's pending actions reach the controls. *)
Definition browser_step : M unit := fun w =>
  Done tt (mkWorld (Meshcat.acts (browser (polls w)) (meshcat w))
                   (plant_context w) (time_calls w) (S (polls w)) (trace w)).

Definition __init__ (plant : Plant) (L : float) : M CurvatureSliders :=
  let output := mkOutputPort "q1_q2" 2 true in
  let output := mkOutputPort (port_name output) (port_size output) false in
  tell (Meshcat.AddSlider (name _Q1) (-2.0 * np.pi) (2.0 * np.pi) 0.1 (default _Q1)) ;;
  tell (Meshcat.AddSlider (name _Q2) (-2.0 * np.pi) (2.0 * np.pi) 0.1 (default _Q2)) ;;
  mret (mkSelf [output] plant L).

Definition SetConfiguration (q : list float) : M unit :=
  q0 ← lift (getitem q 0);
  tell (Meshcat.SetSliderValue (name _Q1) q0) ;;
  q1 ← lift (getitem q 1);
  tell (Meshcat.SetSliderValue (name _Q2) q1).

(** The integer literals 0 of the straight-segment lists are written as
    the float 0 they compare equal to (and become, once numpy subtracts the
    plant's positions); [functools.reduce(operator.iconcat, ..., [])] is the
    left fold of list concatenation from the empty list. *)
Definition CC2AGRB (self : CurvatureSliders) (q : list float)
  : result (list float) :=
  q1 ← getitem q 0;
  q2 ← getitem q 1;
  let config1 := [0; 0.5 * _L self; 0.5 * _L self; 0]%float in
  let config2 := [0; 0.5 * _L self; 0.5 * _L self; 0]%float in
  config1 ←
    (if ne0 q1 then
       y ← truediv (_L self * np_sin (0.5 * q1)) q1;
       z ← truediv (_L self * np_sin (0.5 * q1)) q1;
       mret [0.5 * q1; y; z; 0.5 * q1]%float
     else mret config1);
  config2 ←
    (if ne0 q2 then
       y ← truediv (_L self * np_sin (0.5 * q2)) q2;
       z ← truediv (_L self * np_sin (0.5 * q2)) q2;
       mret [0.5 * q2; y; z; 0.5 * q2]%float
     else mret config2);
  mret (foldl (fun acc c => acc ++ c) [] [config1; config2]).

Definition DoCalcOutput (self : CurvatureSliders) (output : list float)
  : M (list float) :=
  q1 ← ask (Meshcat.GetSliderValue (name _Q1));
  q2 ← ask (Meshcat.GetSliderValue (name _Q2));
  output ← lift (SetAtIndex 0 q1 output);
  lift (SetAtIndex 1 q2 output).

(** [self.get_output_port().Eval(sliders_context)]: caching is off, so
    each evaluation runs the calculator on a fresh vector of the port's
    size (the host fills a fresh vector with NaN). *)
Definition Eval (self : CurvatureSliders) : M (list float) :=
  match output_ports self with
  | [port] => DoCalcOutput self (replicate (port_size port) nan)
  | _ => lift (Raise RuntimeError)
  end.

(** One evaluation of the loop condition and, if it holds, of the body. *)
Definition Run_body (self : CurvatureSliders) (timeout t0 : float) : M Flow :=
  clicks ← ask (Meshcat.GetButtonClicks kButtonName);
  if (clicks <? 1)%Z then
    now ← time_time;
    let elapsed_t := (now - t0)%float in
    if (timeout <=? elapsed_t)%float then mret Leave
    else
      old_positions ← GetPositions;
      q ← Eval self;
      new_positions ← lift (CC2AGRB self q);
      d ← lift (np.subtract new_positions old_positions);
      if np.all (np.less (np.abs d) 0.001) then
        time_sleep 0.01 ;;
        mret Again
      else
        SetPositions new_positions ;;
        diagram_Publish ;;
        mret Again
  else mret Leave.

Fixpoint Run_loop (fuel : nat) (self : CurvatureSliders) (timeout t0 : float)
  : M unit :=
  match fuel with
  | O => Polling
  | S fuel' =>
      browser_step ;;
      flow ← Run_body self timeout t0;
      match flow with
      | Leave => mret tt
      | Again => Run_loop fuel' self timeout t0
      end
  end.

Definition Run (fuel : nat) (self : CurvatureSliders) (timeout : float) : M unit :=
  CreateDefaultContext (_plant self) ;;
  logging_info "Press the '{}' button in Meshcat to continue." kButtonName ;;
  tell (Meshcat.AddButton kButtonName) ;;
  t0 ← time_time;
  diagram_Publish ;;
  Run_loop fuel self timeout t0.

(** The segment block as the specification words it: the closed form for
    a curved segment, the straight-segment values when the curvature
    compares equal to zero. *)
Definition segment_block (L q : float) : list float :=
  if (q =? 0)%float
  then [0; 0.5 * L; 0.5 * L; 0]%float
  else [0.5 * q; L * np_sin (0.5 * q) / q; L * np_sin (0.5 * q) / q; 0.5 * q]%float.

(** An instance as the constructor leaves it: one output port, named
    q1_q2, of size 2, not cached. *)
Definition constructed (self : CurvatureSliders) : Prop :=
  output_ports self = [mkOutputPort "q1_q2" 2 false].

(** A world the loop can poll: the stop button and both sliders exist and
    the plant has the eight positions of a two-segment arm. *)
Definition pollable (w : World) : Prop :=
  is_Some (Meshcat.buttons (meshcat w) !! kButtonName)
  /\ is_Some (Meshcat.sliders (meshcat w) !! name _Q1)
  /\ is_Some (Meshcat.sliders (meshcat w) !! name _Q2)
  /\ length (plant_context w) = 8.

(** The stop button has been clicked at least once. *)
Definition clicked (m : Meshcat.t) : bool :=
  match Meshcat.buttons m !! kButtonName with
  | Some c => (1 <=? c)%Z
  | None => false
  end.

(** The clock reading [now] is at least [timeout] past [t0]. *)
Definition timed_out (timeout t0 now : float) : bool :=
  (timeout <=? now - t0)%float.

(** Every coordinate of [new] is within 0.001 of [old]. *)
Definition within (new old : list float) : bool :=
  np.all (np.less (np.abs (zip_with PrimFloat.sub new old)) 0.001).

(** The controls as the evaluation of the loop condition [k] rounds after
    [w] finds them. *)
Definition seen (w : World) (k : nat) : Meshcat.t :=
  foldl (fun m j => Meshcat.acts (browser j) m) (meshcat w)
        (seq (polls w) (S k)).

(** The loop leaves at the evaluation [k] rounds after [w]: the button has
    been clicked, or the clock reading of that round has timed out. *)
Definition exit_at (timeout t0 : float) (w : World) (k : nat) : bool :=
  clicked (seen w k) || timed_out timeout t0 (wall_clock (time_calls w + k)).

(** The world after one more reading of the clock. *)
Definition tick (w : World) : World :=
  mkWorld (meshcat w) (plant_context w) (S (time_calls w)) (polls w) (trace w).

(** The world an outcome ends in. *)
Definition world_of {A} (o : Outcome A) : World :=
  match o with
  | Done _ w => w
  | Raised _ w => w
  | Polling w => w
  end.

(** The positions shown by the latest frame of a trace. *)
Definition last_publish (t : list Event) : option (list float) :=
  foldl (fun shown e => match e with Publish q => Some q | _ => shown end) None t.

(** The controls after the browser's actions of rounds [p], ..., [p + n - 1]. *)
Definition browsed (p n : nat) (m : Meshcat.t) : Meshcat.t :=
  foldl (fun m j => Meshcat.acts (browser j) m) m (seq p n).

(** The world after a sleep of 0.01 seconds, and after positions [q] have
    been set and published. *)
Definition slept (w : World) : World :=
  mkWorld (meshcat w) (plant_context w) (time_calls w) (polls w)
          (trace w ++ [Sleep 0.01]).

Definition published (q : list float) (w : World) : World :=
  mkWorld (meshcat w) q (time_calls w) (polls w) (trace w ++ [Publish q]).

(** The world with its controls replaced. *)
Definition with_controls (m : Meshcat.t) (w : World) : World :=
  mkWorld m (plant_context w) (time_calls w) (polls w) (trace w).

(** The ways a round started in [w] can end: it leaves at once or after
    reading the clock, raises at either point, sleeps, or sets and
    publishes positions of the plant's size. *)
Definition round_outcome (w : World) (o : Outcome Flow) : Prop :=
  o = Done Leave w
  \/ o = Done Leave (tick w)
  \/ (exists e, o = Raised e w)
  \/ (exists e, o = Raised e (tick w))
  \/ o = Done Again (slept (tick w))
  \/ (exists q, length q = length (plant_context w)
                /\ o = Done Again (published q (tick w))).

(** ** The kinematics map *)

Lemma truediv_guarded (x q : float) :
  ne0 q = true -> truediv x q = Ok (x / q)%float.
Proof.
  unfold ne0, truediv. destruct (q =? 0)%float; [discriminate | reflexivity].
Qed.

(** Behind its guard a segment's two quotients are both evaluated and
    neither raises. *)
Lemma guarded_segment (L q : float) (straight_config : list float) :
  (if ne0 q then
     y ← truediv (L * np_sin (0.5 * q)) q;
     z ← truediv (L * np_sin (0.5 * q)) q;
     mret [0.5 * q; y; z; 0.5 * q]%float
   else mret straight_config)
  = Ok (if ne0 q
        then [0.5 * q; L * np_sin (0.5 * q) / q; L * np_sin (0.5 * q) / q; 0.5 * q]%float
        else straight_config).
Proof.
  destruct (ne0 q) eqn:Hq; [| reflexivity].
  rewrite !truediv_guarded by exact Hq. reflexivity.
Qed.

Lemma CC2AGRB_cons (self : CurvatureSliders) (q1 q2 : float) (rest : list float) :
  CC2AGRB self (q1 :: q2 :: rest)
  = Ok (segment_block (_L self) q1 ++ segment_block (_L self) q2).
Proof.
  unfold CC2AGRB, getitem. cbn [lookup list_lookup].
  unfold mbind at 1 2, result_bind. cbv zeta.
  rewrite !guarded_segment.
  unfold segment_block, ne0.
  destruct (q1 =? 0)%float, (q2 =? 0)%float; reflexivity.
Qed.

Lemma segment_block_length (L q : float) : length (segment_block L q) = 4.
Proof. unfold segment_block. destruct (q =? 0)%float; reflexivity. Qed.

(** C1: on a pair (q1, q2), with rest length L, [CC2AGRB] returns the
    concatenation of two four-element blocks, eight values in all; the
    block of a curvature q is [0.5 q, L sin(0.5 q) / q, L sin(0.5 q) / q,
    0.5 q] when q is not zero and [0, 0.5 L, 0.5 L, 0] when q is zero. *)
Theorem CC2AGRB_blocks (self : CurvatureSliders) (q1 q2 : float) :
  CC2AGRB self [q1; q2]
  = Ok (segment_block (_L self) q1 ++ segment_block (_L self) q2)
  /\ length (segment_block (_L self) q1) = 4
  /\ length (segment_block (_L self) q2) = 4
  /\ length (segment_block (_L self) q1 ++ segment_block (_L self) q2) = 8.
Proof.
  rewrite CC2AGRB_cons, length_app, !segment_block_length.
  repeat split; reflexivity.
Qed.

(** C4: [CC2AGRB] returns on every input with at least two elements.  A
    division by a zero divisor raises in this model, so a returned value
    means no such division was evaluated: each quotient sits behind the
    test that its divisor is not zero. *)
Theorem CC2AGRB_total (self : CurvatureSliders) (q : list float) :
  2 <= length q ->
  exists r, CC2AGRB self q = Ok r /\ length r = 8.
Proof.
  intros Hlen.
  destruct q as [|q1 [|q2 rest]]; cbn in Hlen; try lia.
  eexists. split; [apply CC2AGRB_cons |].
  rewrite length_app, !segment_block_length. reflexivity.
Qed.

(** C9: the result r of [CC2AGRB] on (q1, q2) has r[0] = r[3],
    r[1] = r[2], r[4] = r[7], r[5] = r[6]; its first four values do not
    change when q2 does, its last four do not change when q1 does. *)
Theorem CC2AGRB_symmetric (self : CurvatureSliders) (q1 q2 q1' q2' : float) :
  exists r r1 r2 : list float,
    CC2AGRB self [q1; q2] = Ok r /\ length r = 8
    /\ r !! 0 = r !! 3 /\ r !! 1 = r !! 2
    /\ r !! 4 = r !! 7 /\ r !! 5 = r !! 6
    /\ CC2AGRB self [q1; q2'] = Ok r1 /\ take 4 r1 = take 4 r
    /\ CC2AGRB self [q1'; q2] = Ok r2 /\ drop 4 r2 = drop 4 r.
Proof.
  exists (segment_block (_L self) q1 ++ segment_block (_L self) q2),
         (segment_block (_L self) q1 ++ segment_block (_L self) q2'),
         (segment_block (_L self) q1' ++ segment_block (_L self) q2).
  rewrite !CC2AGRB_cons.
  unfold segment_block.
  destruct (q1 =? 0)%float, (q2 =? 0)%float, (q1' =? 0)%float, (q2' =? 0)%float;
    cbn; repeat split; reflexivity.
Qed.


Lemma Eval_sliders (self : CurvatureSliders) (w : World) (s1 s2 : Meshcat.Slider) :
  constructed self ->
  Meshcat.sliders (meshcat w) !! name _Q1 = Some s1 ->
  Meshcat.sliders (meshcat w) !! name _Q2 = Some s2 ->
  Eval self w = Done [Meshcat.s_value s1; Meshcat.s_value s2] w.
Proof.
  intros Hc H1 H2. unfold Eval. rewrite Hc. cbn.
  unfold DoCalcOutput, mbind, M_bind, ask, lift, Meshcat.GetSliderValue.
  rewrite H1, H2. reflexivity.
Qed.

Lemma subtract_same_length (a b : list float) :
  length a = length b -> np.subtract a b = Ok (zip_with PrimFloat.sub a b).
Proof. intros H. unfold np.subtract. rewrite decide_True by exact H. reflexivity. Qed.

Lemma Run_body_eq (self : CurvatureSliders) (timeout t0 : float) (w : World)
      (c : Z) (s1 s2 : Meshcat.Slider) :
  constructed self ->
  Meshcat.buttons (meshcat w) !! kButtonName = Some c ->
  Meshcat.sliders (meshcat w) !! name _Q1 = Some s1 ->
  Meshcat.sliders (meshcat w) !! name _Q2 = Some s2 ->
  length (plant_context w) = 8 ->
  Run_body self timeout t0 w =
    if (c <? 1)%Z then
      if timed_out timeout t0 (wall_clock (time_calls w)) then Done Leave (tick w)
      else
        let new := segment_block (_L self) (Meshcat.s_value s1)
                   ++ segment_block (_L self) (Meshcat.s_value s2) in
        if within new (plant_context w)
        then Done Again (mkWorld (meshcat w) (plant_context w) (S (time_calls w))
                                 (polls w) (trace w ++ [Sleep 0.01]))
        else Done Again (mkWorld (meshcat w) new (S (time_calls w))
                                 (polls w) (trace w ++ [Publish new]))
    else Done Leave w.
Proof.
  intros Hc Hb H1 H2 Hlen.
  unfold Run_body, mbind at 1, M_bind at 1, ask, lift, Meshcat.GetButtonClicks.
  rewrite Hb. destruct (c <? 1)%Z; [| reflexivity].
  unfold mbind at 1, M_bind at 1, time_time. fold (tick w).
  unfold timed_out. destruct (timeout <=? _)%float; [reflexivity |].
  unfold mbind at 1, M_bind at 1, GetPositions.
  unfold mbind at 1, M_bind at 1.
  rewrite (Eval_sliders self (tick w) s1 s2 Hc H1 H2).
  rewrite CC2AGRB_cons.
  unfold mbind at 1, M_bind at 1. unfold mbind at 1, M_bind at 1.
  rewrite subtract_same_length
    by (rewrite length_app, !segment_block_length; cbn; rewrite Hlen; reflexivity).
  cbn [tick plant_context]. fold (within (segment_block (_L self) (Meshcat.s_value s1) ++
     segment_block (_L self) (Meshcat.s_value s2)) (plant_context w)).
  destruct (within _ _).
  - reflexivity.
  - unfold mbind, M_bind, SetPositions. cbn.
    rewrite decide_True
      by (rewrite length_app, !segment_block_length; cbn; rewrite Hlen; reflexivity).
    reflexivity.
Qed.

Lemma within_lookup (new old : list float) (i : nat) (a b : float) :
  new !! i = Some a -> old !! i = Some b ->
  np.less (np.abs (zip_with PrimFloat.sub new old)) 0.001 !! i
  = Some (abs (a - b) <? 0.001)%float.
Proof.
  intros Ha Hb. unfold np.less, np.abs.
  rewrite !list_lookup_fmap, lookup_zip_with, Ha, Hb. reflexivity.
Qed.

Lemma within_false (new old : list float) (i : nat) (a b : float) :
  new !! i = Some a -> old !! i = Some b ->
  (abs (a - b) <? 0.001)%float = false ->
  within new old = false.
Proof.
  intros Ha Hb Hf. unfold within, np.all.
  destruct (forallb id _) eqn:E; [| reflexivity].
  rewrite forallb_forall in E.
  specialize (E (abs (a - b) <? 0.001)%float).
  rewrite <- Hf. symmetry. apply E.
  apply list_elem_of_In, list_elem_of_lookup. exists i.
  apply within_lookup; assumption.
Qed.

Lemma within_true (new old : list float) :
  length new = length old ->
  (forall i a b, new !! i = Some a -> old !! i = Some b ->
                 (abs (a - b) <? 0.001)%float = true) ->
  within new old = true.
Proof.
  intros Hlen Hall. unfold within, np.all.
  apply forallb_forall. intros x Hx.
  apply list_elem_of_In, list_elem_of_lookup in Hx as [i Hi].
  assert (Hlt : i < length new).
  { apply lookup_lt_Some in Hi.
    unfold np.less, np.abs in Hi.
    rewrite !length_fmap, length_zip_with in Hi. lia. }
  destruct (lookup_lt_is_Some_2 new i Hlt) as [a Ha].
  destruct (lookup_lt_is_Some_2 old i ltac:(lia)) as [b Hb].
  rewrite (within_lookup _ _ _ _ _ Ha Hb) in Hi.
  injection Hi as <-. exact (Hall i a b Ha Hb).
Qed.

(** ** Comparisons of binary64 values *)

Lemma SFcompare_antisym (x y : spec_float) (c : comparison) :
  SFcompare x y = Some c -> SFcompare y x = Some (CompOpp c).
Proof.
  destruct x as [sx|sx| |sx mx ex], y as [sy|sy| |sy my ey]; cbn;
    try discriminate; intros [= <-];
    repeat match goal with s : bool |- _ => destruct s end;
    try reflexivity.
  all: rewrite (Z.compare_antisym ex ey);
    destruct (ex ?= ey)%Z; cbn; try reflexivity.
  all: change (PosDef.Pos.compare_cont Eq my mx) with (my ?= mx)%positive;
    change (PosDef.Pos.compare_cont Eq mx my) with (mx ?= my)%positive;
    rewrite (Pos.compare_antisym mx my); try reflexivity.
Qed.

(** [y <= x] excludes [x < y], also on infinities and NaN. *)
Lemma leb_ltb_false (x y : float) :
  (y <=? x)%float = true -> (x <? y)%float = false.
Proof.
  rewrite leb_spec, ltb_spec. unfold SFleb, SFltb.
  destruct (SFcompare (Prim2SF y) (Prim2SF x)) as [c|] eqn:E; [| discriminate].
  rewrite (SFcompare_antisym _ _ _ E).
  destruct c; cbn; congruence.
Qed.

(** ** One round of the polling loop *)

Lemma CC2AGRB_pair_inv (self : CurvatureSliders) (q1 q2 : float) (new : list float) :
  CC2AGRB self [q1; q2] = Ok new ->
  new = segment_block (_L self) q1 ++ segment_block (_L self) q2 /\ length new = 8.
Proof.
  rewrite CC2AGRB_cons. intros [= <-].
  rewrite length_app, !segment_block_length. split; reflexivity.
Qed.

(** C2: in a round of the loop that passes the exit tests and in which
    the new positions, [CC2AGRB] of the output port's value, differ from
    the plant's current ones by at least 0.001 in some coordinate, [Run]
    sets the plant's positions to exactly the new ones and then publishes
    the diagram (the frame published shows the new positions). *)
Theorem Run_body_sets_and_publishes
    (self : CurvatureSliders) (timeout t0 : float) (w : World)
    (c : Z) (s1 s2 : Meshcat.Slider) (new : list float) :
  constructed self ->
  Meshcat.buttons (meshcat w) !! kButtonName = Some c -> (c < 1)%Z ->
  timed_out timeout t0 (wall_clock (time_calls w)) = false ->
  Meshcat.sliders (meshcat w) !! name _Q1 = Some s1 ->
  Meshcat.sliders (meshcat w) !! name _Q2 = Some s2 ->
  length (plant_context w) = 8 ->
  CC2AGRB self [Meshcat.s_value s1; Meshcat.s_value s2] = Ok new ->
  (exists i a b, new !! i = Some a /\ plant_context w !! i = Some b
                 /\ (0.001 <=? abs (a - b))%float = true) ->
  Eval self w = Done [Meshcat.s_value s1; Meshcat.s_value s2] w
  /\ Run_body self timeout t0 w
     = Done Again (mkWorld (meshcat w) new (S (time_calls w)) (polls w)
                           (trace w ++ [Publish new])).
Proof.
  intros Hc Hb Hlt Ht H1 H2 Hlen Hnew (i & a & b & Ha & Hold & Hdiff).
  split; [apply Eval_sliders; assumption |].
  rewrite (Run_body_eq self timeout t0 w c s1 s2) by assumption.
  apply Z.ltb_lt in Hlt. rewrite Hlt, Ht.
  apply CC2AGRB_pair_inv in Hnew as [-> _]. cbn zeta.
  rewrite (within_false _ _ i a b Ha Hold) by (apply leb_ltb_false, Hdiff).
  reflexivity.
Qed.

(** C8: in a round of the loop that passes the exit tests and in which
    every coordinate of the new positions is within 0.001 of the plant's
    current one, the plant's positions stay as they are and nothing is
    published: the round only reads the clock and sleeps. *)
Theorem Run_body_keeps_context
    (self : CurvatureSliders) (timeout t0 : float) (w : World)
    (c : Z) (s1 s2 : Meshcat.Slider) (new : list float) :
  constructed self ->
  Meshcat.buttons (meshcat w) !! kButtonName = Some c -> (c < 1)%Z ->
  timed_out timeout t0 (wall_clock (time_calls w)) = false ->
  Meshcat.sliders (meshcat w) !! name _Q1 = Some s1 ->
  Meshcat.sliders (meshcat w) !! name _Q2 = Some s2 ->
  length (plant_context w) = 8 ->
  CC2AGRB self [Meshcat.s_value s1; Meshcat.s_value s2] = Ok new ->
  (forall i a b, new !! i = Some a -> plant_context w !! i = Some b ->
                 (abs (a - b) <? 0.001)%float = true) ->
  exists w',
    Run_body self timeout t0 w = Done Again w'
    /\ plant_context w' = plant_context w
    /\ trace w' = trace w ++ [Sleep 0.01]
    /\ (forall q, Publish q ∉ drop (length (trace w)) (trace w')).
Proof.
  intros Hc Hb Hlt Ht H1 H2 Hlen Hnew Hall.
  rewrite (Run_body_eq self timeout t0 w c s1 s2) by assumption.
  apply Z.ltb_lt in Hlt. rewrite Hlt, Ht.
  apply CC2AGRB_pair_inv in Hnew as [-> Hlen']. cbn zeta.
  rewrite within_true by (congruence || assumption).
  eexists. split; [reflexivity |]. cbn.
  repeat split.
  intros q. rewrite drop_app_length. intros Hin.
  apply list_elem_of_singleton in Hin. discriminate.
Qed.

(** C7, as the code has it: a round that does not leave the loop sleeps
    for 0.01 seconds before the next poll when every coordinate of the
    new positions is within 0.001 of the plant's, and that sleep is all
    it emits; a round that publishes new positions goes back to the poll
    without sleeping. *)
Theorem Run_body_sleeps_when_idle
    (self : CurvatureSliders) (timeout t0 : float) (w w' : World)
    (s1 s2 : Meshcat.Slider) (new : list float) :
  constructed self ->
  Meshcat.sliders (meshcat w) !! name _Q1 = Some s1 ->
  Meshcat.sliders (meshcat w) !! name _Q2 = Some s2 ->
  length (plant_context w) = 8 ->
  CC2AGRB self [Meshcat.s_value s1; Meshcat.s_value s2] = Ok new ->
  Run_body self timeout t0 w = Done Again w' ->
  trace w' = trace w ++ (if within new (plant_context w)
                         then [Sleep 0.01] else [Publish new]).
Proof.
  intros Hc H1 H2 Hlen Hnew Hrun.
  destruct (Meshcat.buttons (meshcat w) !! kButtonName) as [c|] eqn:Hb.
  - rewrite (Run_body_eq self timeout t0 w c s1 s2) in Hrun by assumption.
    apply CC2AGRB_pair_inv in Hnew as [-> _].
    destruct (c <? 1)%Z; [| discriminate].
    destruct (timed_out _ _ _); [discriminate |].
    cbn zeta in Hrun.
    destruct (within _ _); injection Hrun as <-; reflexivity.
  - unfold Run_body, mbind, M_bind, ask, lift, Meshcat.GetButtonClicks in Hrun.
    rewrite Hb in Hrun. discriminate.
Qed.

(** ** The loop as a whole *)

Lemma act_keeps_controls (a : Meshcat.UserAction) (m : Meshcat.t) (x : string) :
  (is_Some (Meshcat.buttons m !! x) -> is_Some (Meshcat.buttons (Meshcat.act a m) !! x))
  /\ (is_Some (Meshcat.sliders m !! x) -> is_Some (Meshcat.sliders (Meshcat.act a m) !! x)).
Proof.
  destruct a as [n v | n]; cbn.
  - unfold Meshcat.SetSliderValue.
    destruct (Meshcat.sliders m !! n) eqn:E; cbn; split; try done.
    intros Hs. destruct (decide (n = x)) as [-> | Hne].
    + rewrite lookup_insert_eq. eauto.
    + rewrite lookup_insert_ne by done. exact Hs.
  - destruct (Meshcat.buttons m !! n) eqn:E; cbn; split; try done.
    intros Hs. destruct (decide (n = x)) as [-> | Hne].
    + rewrite lookup_insert_eq. eauto.
    + rewrite lookup_insert_ne by done. exact Hs.
Qed.

Lemma acts_keep_controls (l : list Meshcat.UserAction) (m : Meshcat.t) (x : string) :
  (is_Some (Meshcat.buttons m !! x) -> is_Some (Meshcat.buttons (Meshcat.acts l m) !! x))
  /\ (is_Some (Meshcat.sliders m !! x) -> is_Some (Meshcat.sliders (Meshcat.acts l m) !! x)).
Proof.
  revert m. induction l as [|a l IH]; intros m; [done |].
  cbn. destruct (IH (Meshcat.act a m)) as [IHb IHs].
  destruct (act_keeps_controls a m x) as [Hb Hs]. split; auto.
Qed.

Lemma browser_step_pollable (w : World) :
  pollable w ->
  exists w1, browser_step w = Done tt w1
    /\ pollable w1 /\ meshcat w1 = seen w 0
    /\ polls w1 = S (polls w) /\ time_calls w1 = time_calls w.
Proof.
  intros (Hb & H1 & H2 & Hlen). eexists. split; [reflexivity |]. cbn.
  repeat split; try assumption.
  all: apply acts_keep_controls; assumption.
Qed.

Lemma Run_body_flow (self : CurvatureSliders) (timeout t0 : float) (w : World) :
  constructed self -> pollable w ->
  exists w',
    Run_body self timeout t0 w
    = Done (if clicked (meshcat w) || timed_out timeout t0 (wall_clock (time_calls w))
            then Leave else Again) w'
    /\ pollable w' /\ meshcat w' = meshcat w /\ polls w' = polls w
    /\ (clicked (meshcat w) = false -> time_calls w' = S (time_calls w)).
Proof.
  intros Hc (Hb & H1 & H2 & Hlen).
  pose proof Hb as [c Hc']. pose proof H1 as [s1 Hs1]. pose proof H2 as [s2 Hs2].
  rewrite (Run_body_eq self timeout t0 w c s1 s2) by assumption.
  unfold clicked. rewrite Hc', (Z.ltb_antisym 1 c).
  destruct (1 <=? c)%Z; cbn [negb orb].
  - exists w. repeat split; (assumption || discriminate).
  - destruct (timed_out timeout t0 (wall_clock (time_calls w))).
    + eexists. split; [reflexivity |]. unfold pollable. cbn. tauto.
    + cbn zeta. destruct (within _ _); eexists; (split; [reflexivity |]);
        unfold pollable; cbn; repeat split; try assumption.
      rewrite length_app, !segment_block_length. reflexivity.
Qed.

Lemma exit_at_shift (timeout t0 : float) (w w1 : World) (k : nat) :
  meshcat w1 = seen w 0 -> polls w1 = S (polls w) ->
  time_calls w1 = S (time_calls w) ->
  exit_at timeout t0 w1 k = exit_at timeout t0 w (S k).
Proof.
  intros Hm Hp Ht. unfold exit_at, seen.
  rewrite Hm, Hp, Ht, Nat.add_succ_r. reflexivity.
Qed.

(** The statements before the loop leave a world in which the loop
    starts: a fresh context with the plant's default positions, the stop
    button at zero clicks, the start time read, one frame published. *)
Lemma Run_enters_loop (fuel : nat) (self : CurvatureSliders) (timeout : float) (w : World) :
  Meshcat.sliders (meshcat w) !! kButtonName = None ->
  Run fuel self timeout w
  = Run_loop fuel self timeout (wall_clock (time_calls w))
      (mkWorld (Meshcat.mk (Meshcat.sliders (meshcat w))
                           (<[kButtonName := 0%Z]> (Meshcat.buttons (meshcat w))))
               (default_positions (_plant self))
               (S (time_calls w)) (polls w)
               (trace w ++ [LogInfo "Press the '{}' button in Meshcat to continue."
                                    kButtonName;
                            Publish (default_positions (_plant self))])).
Proof.
  intros Hfree.
  unfold Run, mbind, M_bind, CreateDefaultContext, logging_info, emit, tell,
    Meshcat.AddButton, time_time, diagram_Publish.
  cbn. rewrite Hfree. cbn. rewrite <- app_assoc. reflexivity.
Qed.

(** C3: for every timeout, the polling loop leaves exactly at the first
    evaluation of its condition at which the stop button has been clicked
    at least once or the clock reading is at least the timeout past the
    start time.  While neither holds (rounds 0 .. n-1) the loop is still
    polling, whatever the fuel up to n; if one holds at round n, the loop
    returns after n+1 evaluations of the condition. *)
Theorem Run_loop_exits_exactly
    (self : CurvatureSliders) (timeout t0 : float) (w : World) (n : nat) :
  constructed self -> pollable w ->
  (forall k, k < n -> exit_at timeout t0 w k = false) ->
  (forall fuel, fuel <= n ->
     exists w', Run_loop fuel self timeout t0 w = Polling w')
  /\ (exit_at timeout t0 w n = true ->
      forall fuel, n < fuel ->
        exists w', Run_loop fuel self timeout t0 w = Done tt w'
                   /\ polls w' = polls w + S n).
Proof.
  intros Hc. revert w. induction n as [|n IH]; intros w Hw Hno.
  - split.
    + intros fuel Hf. assert (fuel = 0) as -> by lia. eexists. reflexivity.
    + intros Hex [|fuel] Hf; [lia |].
      destruct (browser_step_pollable w Hw) as (w1 & Hstep & Hw1 & Hm & Hp & Ht).
      destruct (Run_body_flow self timeout t0 w1 Hc Hw1) as (w2 & Hrun & _ & _ & Hp2 & _).
      unfold exit_at in Hex. rewrite Nat.add_0_r, <- Hm, <- Ht in Hex.
      rewrite Hex in Hrun.
      exists w2. cbn. unfold mbind at 1, M_bind at 1. rewrite Hstep.
      unfold mbind, M_bind. rewrite Hrun. split; [reflexivity | lia].
  - destruct (browser_step_pollable w Hw) as (w1 & Hstep & Hw1 & Hm & Hp & Ht).
    destruct (Run_body_flow self timeout t0 w1 Hc Hw1)
      as (w2 & Hrun & Hw2 & Hm2 & Hp2 & Ht2).
    pose proof (Hno 0 ltac:(lia)) as H0.
    unfold exit_at in H0. rewrite Nat.add_0_r, <- Hm, <- Ht in H0.
    rewrite H0 in Hrun.
    apply orb_false_elim in H0 as [Hclick _]. specialize (Ht2 Hclick).
    assert (Hshift : forall k, exit_at timeout t0 w2 k = exit_at timeout t0 w (S k)).
    { intros k. apply exit_at_shift; congruence. }
    destruct (IH w2 Hw2) as [IHpoll IHexit].
    { intros k Hk. rewrite Hshift. apply Hno. lia. }
    assert (Hunfold : forall fuel,
               Run_loop (S fuel) self timeout t0 w = Run_loop fuel self timeout t0 w2).
    { intros fuel. cbn. unfold mbind at 1, M_bind at 1. rewrite Hstep.
      unfold mbind at 1, M_bind at 1. rewrite Hrun. reflexivity. }
    split.
    + intros [|fuel] Hf; [eexists; reflexivity |].
      rewrite Hunfold. apply IHpoll. lia.
    + intros Hex [|fuel] Hf; [lia |].
      rewrite Hunfold. rewrite <- Hshift in Hex.
      destruct (IHexit Hex fuel ltac:(lia)) as (w' & Hdone & Hpolls).
      exists w'. split; [exact Hdone | lia].
Qed.

(** ** Further properties of the kinematics map *)

(** X1: an input with fewer than two elements has no [q[0]] or no [q[1]]:
    [CC2AGRB] raises IndexError on it, before any arithmetic. *)
Theorem CC2AGRB_short_input (self : CurvatureSliders) (q : list float) :
  length q < 2 -> CC2AGRB self q = Raise IndexError.
Proof.
  intros Hlen. destruct q as [|q1 [|q2 rest]]; cbn in Hlen; try lia; reflexivity.
Qed.

(** X2: only the first two elements of the input are read; whatever
    follows them does not change the result. *)
Theorem CC2AGRB_ignores_tail (self : CurvatureSliders) (q1 q2 : float) (rest : list float) :
  CC2AGRB self (q1 :: q2 :: rest) = CC2AGRB self [q1; q2].
Proof. rewrite !CC2AGRB_cons. reflexivity. Qed.

Lemma div_nan (x : float) : (x / nan)%float = nan.
Proof.
  apply Prim2SF_inj. rewrite div_spec.
  change (Prim2SF nan) with S754_nan.
  unfold SF64div, SFdiv. destruct (Prim2SF x); reflexivity.
Qed.

Lemma segment_block_nan (L : float) : segment_block L nan = [nan; nan; nan; nan].
Proof.
  unfold segment_block. change (nan =? 0)%float with false. cbv iota.
  rewrite div_nan. reflexivity.
Qed.

(** X3: a NaN curvature is not caught by the test against zero: its block
    is four NaNs, whatever the rest length and the sine, and the block of
    the other segment is what it would be anyway. *)
Theorem CC2AGRB_nan (self : CurvatureSliders) (q1 q2 : float) :
  CC2AGRB self [nan; q2] = Ok ([nan; nan; nan; nan] ++ segment_block (_L self) q2)
  /\ CC2AGRB self [q1; nan] = Ok (segment_block (_L self) q1 ++ [nan; nan; nan; nan]).
Proof. rewrite !CC2AGRB_cons, !segment_block_nan. split; reflexivity. Qed.

(** ** SetConfiguration *)

Lemma SetConfiguration_eq (q : list float) (w : World) :
  SetConfiguration q w =
  match q with
  | [] => Raised IndexError w
  | a :: q' =>
      match Meshcat.SetSliderValue (name _Q1) a (meshcat w) with
      | Raise e => Raised e w
      | Ok m1 =>
          match q' with
          | [] => Raised IndexError (with_controls m1 w)
          | b :: _ =>
              match Meshcat.SetSliderValue (name _Q2) b m1 with
              | Raise e => Raised e (with_controls m1 w)
              | Ok m2 => Done tt (with_controls m2 w)
              end
          end
      end
  end.
Proof.
  destruct q as [|a [|b rest]]; [reflexivity | |];
    unfold SetConfiguration, mbind, M_bind, tell, lift, getitem;
    cbn [lookup list_lookup];
    destruct (Meshcat.SetSliderValue (name _Q1) a (meshcat w)) as [m1|e];
    try reflexivity.
Qed.

(** X4: [SetConfiguration] writes slider q1 before it looks at [q[1]]: on a
    one-element input the first slider has already been set when IndexError
    is raised; on an empty input nothing has been touched. *)
Theorem SetConfiguration_short_input (a : float) (w : World) (m1 : Meshcat.t) :
  Meshcat.SetSliderValue (name _Q1) a (meshcat w) = Ok m1 ->
  SetConfiguration [] w = Raised IndexError w
  /\ SetConfiguration [a] w
     = Raised IndexError (mkWorld m1 (plant_context w) (time_calls w) (polls w) (trace w)).
Proof.
  intros Hset. rewrite !SetConfiguration_eq, Hset. split; reflexivity.
Qed.



(** ** Further properties of the polling loop *)

Lemma Eval_query (self : CurvatureSliders) (w : World) :
  (exists v, Eval self w = Done v w) \/ (exists e, Eval self w = Raised e w).
Proof.
  unfold Eval.
  destruct (output_ports self) as [|port [|? ?]];
    [right; eexists; reflexivity | | right; eexists; reflexivity].
  unfold DoCalcOutput, mbind, M_bind, ask, lift, Meshcat.GetSliderValue.
  destruct (Meshcat.sliders (meshcat w) !! name _Q1); [| right; eauto].
  destruct (Meshcat.sliders (meshcat w) !! name _Q2); [| right; eauto].
  destruct (SetAtIndex 0 _ _); [| right; eauto].
  destruct (SetAtIndex 1 _ _); [left | right]; eauto.
Qed.

(** Every way a round can end, without any assumption on the world. *)
Lemma Run_body_outcomes (self : CurvatureSliders) (timeout t0 : float) (w : World) :
  round_outcome w (Run_body self timeout t0 w).
Proof.
  remember (Run_body self timeout t0 w) as o eqn:Ho.
  unfold Run_body, mbind at 1, M_bind at 1, ask, lift in Ho.
  destruct (Meshcat.GetButtonClicks kButtonName (meshcat w)) as [c|e];
    [| unfold round_outcome; eauto 10].
  destruct (c <? 1)%Z; [| unfold round_outcome; eauto 10].
  unfold mbind at 1, M_bind at 1, time_time in Ho. fold (tick w) in Ho.
  destruct (timeout <=? _)%float; [unfold round_outcome; eauto 10 |].
  unfold mbind at 1, M_bind at 1, GetPositions in Ho.
  unfold mbind at 1, M_bind at 1 in Ho.
  destruct (Eval_query self (tick w)) as [[v Hv] | [e He]]; rewrite ?Hv, ?He in Ho;
    [| unfold round_outcome; eauto 10].
  unfold mbind at 1, M_bind at 1 in Ho.
  destruct (CC2AGRB self v) as [new|e]; [| unfold round_outcome; eauto 10].
  unfold mbind at 1, M_bind at 1 in Ho.
  destruct (np.subtract new (plant_context (tick w))) as [d|e];
    [| unfold round_outcome; eauto 10].
  destruct (np.all _).
  - unfold round_outcome; eauto 10.
  - unfold mbind, M_bind, SetPositions in Ho.
    destruct (decide (length new = length (plant_context (tick w)))) as [Hlen|Hlen];
      unfold round_outcome; eauto 10.
Qed.

(** A property of worlds that survives a clock reading, a sleep and a
    set-and-publish survives a round, however the round ends. *)
Lemma Run_body_invariant (I : World -> Prop)
      (self : CurvatureSliders) (timeout t0 : float) (w : World) :
  (forall w, I w -> I (tick w)) ->
  (forall w, I w -> I (slept w)) ->
  (forall q w, length q = length (plant_context w) -> I w -> I (published q w)) ->
  I w -> I (world_of (Run_body self timeout t0 w)).
Proof.
  intros Htick Hslept Hpub Hw.
  destruct (Run_body_outcomes self timeout t0 w)
    as [-> | [-> | [[e ->] | [[e ->] | [-> | (q & Hq & ->)]]]]]; cbn [world_of]; auto.
Qed.

Lemma Run_loop_unfold (fuel : nat) (self : CurvatureSliders) (timeout t0 : float)
      (w : World) :
  Run_loop (S fuel) self timeout t0 w =
  match Run_body self timeout t0 (world_of (browser_step w)) with
  | Done Leave w' => Done tt w'
  | Done Again w' => Run_loop fuel self timeout t0 w'
  | Raised e w' => Raised e w'
  | Polling w' => Polling w'
  end.
Proof.
  cbn [Run_loop]. unfold mbind, M_bind. cbn [browser_step world_of].
  destruct (Run_body self timeout t0 _) as [[|] w' | e w' | w']; reflexivity.
Qed.

(** If moreover the browser's actions keep it, it survives the whole loop. *)
Lemma Run_loop_invariant (I : World -> Prop)
      (self : CurvatureSliders) (timeout t0 : float) (fuel : nat) :
  (forall w, I w -> I (world_of (browser_step w))) ->
  (forall w, I w -> I (tick w)) ->
  (forall w, I w -> I (slept w)) ->
  (forall q w, length q = length (plant_context w) -> I w -> I (published q w)) ->
  forall w, I w -> I (world_of (Run_loop fuel self timeout t0 w)).
Proof.
  intros Hbrowse Htick Hslept Hpub.
  induction fuel as [|fuel IH]; intros w Hw; [exact Hw |].
  rewrite Run_loop_unfold.
  pose proof (Run_body_invariant I self timeout t0 _ Htick Hslept Hpub (Hbrowse w Hw))
    as Hbody.
  destruct (Run_body self timeout t0 _) as [[|] w' | e w' | w']; cbn [world_of] in *;
    auto.
Qed.

(** X6: a round that leaves the loop, by the button or by the timeout,
    emits nothing: no frame is published and no sleep happens once the
    exit is seen, and the plant's positions and the controls are as the
    round found them. *)
Theorem Run_body_leave_is_silent
    (self : CurvatureSliders) (timeout t0 : float) (w w' : World) :
  Run_body self timeout t0 w = Done Leave w' ->
  trace w' = trace w /\ plant_context w' = plant_context w
  /\ meshcat w' = meshcat w /\ polls w' = polls w.
Proof.
  intros Hrun.
  destruct (Run_body_outcomes self timeout t0 w)
    as [H | [H | [[e H] | [[e H] | [H | (q & _ & H)]]]]];
    rewrite H in Hrun; try discriminate;
    injection Hrun as <-; repeat split; reflexivity.
Qed.

Lemma browsed_S (p n : nat) (m : Meshcat.t) :
  browsed p (S n) m = browsed (S p) n (Meshcat.acts (browser p) m).
Proof. reflexivity. Qed.

(** X7: the loop never writes the controls.  However it ends (left,
    raised, or still polling), it has evaluated its condition some n times,
    at most the fuel, and the sliders and buttons are the ones it started
    with after the user's actions of those n rounds, nothing else. *)
Theorem Run_loop_keeps_controls
    (self : CurvatureSliders) (timeout t0 : float) (fuel : nat) (w : World) :
  let w' := world_of (Run_loop fuel self timeout t0 w) in
  exists n, n <= fuel /\ polls w' = polls w + n
            /\ meshcat w' = browsed (polls w) n (meshcat w).
Proof.
  cbv zeta. revert w. induction fuel as [|fuel IH]; intros w.
  - exists 0. cbn. repeat split; lia.
  - rewrite Run_loop_unfold.
    set (wb := world_of (browser_step w)).
    assert (Hbody : meshcat (world_of (Run_body self timeout t0 wb)) = meshcat wb
                    /\ polls (world_of (Run_body self timeout t0 wb)) = polls wb).
    { apply (Run_body_invariant
               (fun x => meshcat x = meshcat wb /\ polls x = polls wb));
        [intros x Hx; exact Hx | intros x Hx; exact Hx | intros q x _ Hx; exact Hx
        | split; reflexivity]. }
    destruct Hbody as [Hm Hp].
    assert (Hone : forall x, meshcat x = meshcat wb -> polls x = polls wb ->
               exists n, n <= S fuel /\ polls x = polls w + n
                         /\ meshcat x = browsed (polls w) n (meshcat w)).
    { intros x Hx Hpx. exists 1. rewrite Hx, Hpx. cbn. repeat split; lia. }
    destruct (Run_body self timeout t0 wb) as [[|] w2 | e w2 | w2];
      cbn [world_of] in *; auto.
    destruct (IH w2) as (n & Hn & Hpolls & Hctl).
    exists (S n). rewrite Hpolls, Hctl, Hp, Hm, browsed_S. cbn.
    repeat split; lia.
Qed.

Lemma last_publish_snoc (t : list Event) (e : Event) :
  last_publish (t ++ [e])
  = match e with Publish q => Some q | _ => last_publish t end.
Proof. unfold last_publish. rewrite foldl_app. reflexivity. Qed.

(** X8: [Run] starts from the plant's default positions, whatever the
    context held before: when no slider bears the stop button's name, the
    first things it emits are the log record and a frame of the default
    positions, and everything else comes after them. *)
Theorem Run_first_frame
    (self : CurvatureSliders) (timeout : float) (fuel : nat) (w : World) :
  Meshcat.sliders (meshcat w) !! kButtonName = None ->
  exists rest,
    trace (world_of (Run fuel self timeout w))
    = trace w ++ [LogInfo "Press the '{}' button in Meshcat to continue." kButtonName;
                  Publish (default_positions (_plant self))] ++ rest.
Proof.
  intros Hfree. rewrite (Run_enters_loop fuel self timeout w Hfree).
  apply (Run_loop_invariant
           (fun x => exists rest,
              trace x = trace w
                ++ [LogInfo "Press the '{}' button in Meshcat to continue." kButtonName;
                    Publish (default_positions (_plant self))] ++ rest)).
  - intros x Hx. exact Hx.
  - intros x Hx. exact Hx.
  - intros x [rest Hx]. exists (rest ++ [Sleep 0.01]). cbn.
    rewrite Hx, <- !app_assoc. reflexivity.
  - intros q x _ [rest Hx]. exists (rest ++ [Publish q]). cbn.
    rewrite Hx, <- !app_assoc. reflexivity.
  - exists []. reflexivity.
Qed.

(** X9: the visualizer is never left behind the plant.  When no slider
    bears the stop button's name, then however [Run] ends (returned,
    raised, or still polling) the latest frame it published shows exactly
    the positions the plant context holds. *)
Theorem Run_last_frame_is_context
    (self : CurvatureSliders) (timeout : float) (fuel : nat) (w : World) :
  Meshcat.sliders (meshcat w) !! kButtonName = None ->
  let w' := world_of (Run fuel self timeout w) in
  last_publish (trace w') = Some (plant_context w').
Proof.
  intros Hfree. cbv zeta. rewrite (Run_enters_loop fuel self timeout w Hfree).
  apply (Run_loop_invariant (fun x => last_publish (trace x) = Some (plant_context x))).
  - intros x Hx. exact Hx.
  - intros x Hx. exact Hx.
  - intros x Hx. cbn. rewrite last_publish_snoc. exact Hx.
  - intros q x _ _. cbn. rewrite last_publish_snoc. reflexivity.
  - cbn. unfold last_publish. rewrite foldl_app. reflexivity.
Qed.

Lemma subtract_mismatch (a b : list float) :
  length a <> length b -> length a <> 1 -> length b <> 1 ->
  np.subtract a b = Raise ValueError.
Proof.
  intros Hab Ha Hb. unfold np.subtract. rewrite decide_False by exact Hab.
  destruct a as [|x [|x' a]], b as [|y [|y' b]]; cbn in *; congruence.
Qed.

(** X10: on a plant whose number of positions is neither eight nor one, a
    round that passes the exit tests raises ValueError at the subtraction
    of old from new positions; it has read the clock and nothing else has
    happened: nothing set, published or slept. *)
Theorem Run_body_wrong_plant
    (self : CurvatureSliders) (timeout t0 : float) (w : World)
    (c : Z) (s1 s2 : Meshcat.Slider) :
  constructed self ->
  Meshcat.buttons (meshcat w) !! kButtonName = Some c -> (c < 1)%Z ->
  timed_out timeout t0 (wall_clock (time_calls w)) = false ->
  Meshcat.sliders (meshcat w) !! name _Q1 = Some s1 ->
  Meshcat.sliders (meshcat w) !! name _Q2 = Some s2 ->
  length (plant_context w) <> 8 -> length (plant_context w) <> 1 ->
  Run_body self timeout t0 w = Raised ValueError (tick w).
Proof.
  intros Hc Hb Hlt Ht H1 H2 H8 H1'.
  unfold Run_body, mbind at 1, M_bind at 1, ask, lift, Meshcat.GetButtonClicks.
  rewrite Hb. apply Z.ltb_lt in Hlt. rewrite Hlt.
  unfold mbind at 1, M_bind at 1, time_time. fold (tick w).
  unfold timed_out in Ht. rewrite Ht.
  unfold mbind at 1, M_bind at 1, GetPositions.
  unfold mbind at 1, M_bind at 1.
  rewrite (Eval_sliders self (tick w) s1 s2 Hc H1 H2), CC2AGRB_cons.
  unfold mbind at 1, M_bind at 1. unfold mbind at 1, M_bind at 1.
  rewrite subtract_mismatch; [reflexivity | | | exact H1'].
  - rewrite length_app, !segment_block_length. cbn. congruence.
  - rewrite length_app, !segment_block_length. cbn. congruence.
Qed.

Lemma within_elim (new old : list float) (i : nat) (a b : float) :
  within new old = true ->
  new !! i = Some a -> old !! i = Some b ->
  (abs (a - b) <? 0.001)%float = true.
Proof.
  intros Hw Ha Hb. unfold within, np.all in Hw.
  rewrite forallb_forall in Hw.
  apply (Hw (abs (a - b) <? 0.001)%float).
  apply list_elem_of_In, list_elem_of_lookup. exists i.
  apply within_lookup; assumption.
Qed.

(** X11: whatever the sliders read, a round that passes the exit tests
    leaves the plant either exactly at the new positions or, untouched,
    within 0.001 of them in every coordinate: the plant never lags the
    sliders by 0.001 or more after a round. *)
Theorem Run_body_tracks_sliders
    (self : CurvatureSliders) (timeout t0 : float) (w : World)
    (c : Z) (s1 s2 : Meshcat.Slider) (new : list float) :
  constructed self ->
  Meshcat.buttons (meshcat w) !! kButtonName = Some c -> (c < 1)%Z ->
  timed_out timeout t0 (wall_clock (time_calls w)) = false ->
  Meshcat.sliders (meshcat w) !! name _Q1 = Some s1 ->
  Meshcat.sliders (meshcat w) !! name _Q2 = Some s2 ->
  length (plant_context w) = 8 ->
  CC2AGRB self [Meshcat.s_value s1; Meshcat.s_value s2] = Ok new ->
  exists w',
    Run_body self timeout t0 w = Done Again w'
    /\ (plant_context w' = new
        \/ (plant_context w' = plant_context w
            /\ forall i a b, new !! i = Some a -> plant_context w' !! i = Some b ->
                             (abs (a - b) <? 0.001)%float = true)).
Proof.
  intros Hc Hb Hlt Ht H1 H2 Hlen Hnew.
  rewrite (Run_body_eq self timeout t0 w c s1 s2) by assumption.
  apply Z.ltb_lt in Hlt. rewrite Hlt, Ht.
  apply CC2AGRB_pair_inv in Hnew as [-> _]. cbn zeta.
  destruct (within _ _) eqn:Hw; eexists; (split; [reflexivity |]); cbn.
  - right. split; [reflexivity |]. intros i a b. apply within_elim, Hw.
  - left. reflexivity.
Qed.

Lemma nan_not_within (b : float) : (abs (nan - b) <? 0.001)%float = false.
Proof.
  assert (Hsub : (nan - b)%float = nan).
  { apply Prim2SF_inj. rewrite sub_spec. reflexivity. }
  rewrite Hsub. reflexivity.
Qed.

(** X12: a NaN slider reading defeats the threshold: a round that passes
    the exit tests then always sets and publishes the new positions (which
    carry the NaNs) and never sleeps, whatever the plant's positions. *)
Theorem Run_body_nan_slider
    (self : CurvatureSliders) (timeout t0 : float) (w : World)
    (c : Z) (s1 s2 : Meshcat.Slider) (new : list float) :
  constructed self ->
  Meshcat.buttons (meshcat w) !! kButtonName = Some c -> (c < 1)%Z ->
  timed_out timeout t0 (wall_clock (time_calls w)) = false ->
  Meshcat.sliders (meshcat w) !! name _Q1 = Some s1 ->
  Meshcat.sliders (meshcat w) !! name _Q2 = Some s2 ->
  length (plant_context w) = 8 ->
  CC2AGRB self [Meshcat.s_value s1; Meshcat.s_value s2] = Ok new ->
  Meshcat.s_value s1 = nan \/ Meshcat.s_value s2 = nan ->
  Run_body self timeout t0 w = Done Again (published new (tick w)).
Proof.
  intros Hc Hb Hlt Ht H1 H2 Hlen Hnew Hnan.
  rewrite (Run_body_eq self timeout t0 w c s1 s2) by assumption.
  apply Z.ltb_lt in Hlt. rewrite Hlt, Ht.
  apply CC2AGRB_pair_inv in Hnew as [-> _]. cbn zeta.
  destruct Hnan as [Hn | Hn]; rewrite Hn, segment_block_nan.
  - destruct (lookup_lt_is_Some_2 (plant_context w) 0 ltac:(lia)) as [b Hb0].
    rewrite (within_false _ _ 0 nan b) by
      (try exact Hb0; try apply nan_not_within; reflexivity).
    reflexivity.
  - destruct (lookup_lt_is_Some_2 (plant_context w) 4 ltac:(lia)) as [b Hb4].
    rewrite (within_false _ _ 4 nan b) by
      (try exact Hb4; try apply nan_not_within;
       unfold segment_block; destruct (_ =? 0)%float; reflexivity).
    reflexivity.
Qed.

(** X13: evaluating the output port is a pure query.  On a constructed
    instance it returns the two slider values when both sliders exist and
    raises RuntimeError when one is missing, and in either case leaves the
    world exactly as it was. *)
Theorem Eval_reads_sliders (self : CurvatureSliders) (w : World) :
  constructed self ->
  Eval self w =
  match Meshcat.sliders (meshcat w) !! name _Q1,
        Meshcat.sliders (meshcat w) !! name _Q2 with
  | Some s1, Some s2 => Done [Meshcat.s_value s1; Meshcat.s_value s2] w
  | _, _ => Raised RuntimeError w
  end.
Proof.
  intros Hc.
  destruct (Meshcat.sliders (meshcat w) !! name _Q1) as [s1|] eqn:H1;
    destruct (Meshcat.sliders (meshcat w) !! name _Q2) as [s2|] eqn:H2.
  - apply Eval_sliders; assumption.
  - unfold Eval. rewrite Hc.
    unfold DoCalcOutput, mbind, M_bind, ask, lift, Meshcat.GetSliderValue.
    rewrite H1, H2. reflexivity.
  - unfold Eval. rewrite Hc.
    unfold DoCalcOutput, mbind, M_bind, ask, lift, Meshcat.GetSliderValue.
    rewrite H1. reflexivity.
  - unfold Eval. rewrite Hc.
    unfold DoCalcOutput, mbind, M_bind, ask, lift, Meshcat.GetSliderValue.
    rewrite H1. reflexivity.
Qed.

Lemma Run_loop_never_raises (self : CurvatureSliders) (timeout t0 : float) (fuel : nat) :
  constructed self ->
  forall w, pollable w ->
  (exists w', Run_loop fuel self timeout t0 w = Done tt w')
  \/ (exists w', Run_loop fuel self timeout t0 w = Polling w').
Proof.
  intros Hc. induction fuel as [|fuel IH]; intros w Hw.
  - right. exists w. reflexivity.
  - rewrite Run_loop_unfold.
    destruct (browser_step_pollable w Hw) as (w1 & -> & Hw1 & _).
    cbn [world_of].
    destruct (Run_body_flow self timeout t0 w1 Hc Hw1) as (w2 & -> & Hw2 & _).
    destruct (_ || _); [left; eauto | apply IH, Hw2].
Qed.

(** X16: on a proper setup (a constructed instance, both sliders on the
    controls, no slider bearing the stop button's name, a plant with eight
    default positions) [Run] never raises, whatever the user does and the
    clock reads: it returns, or it is still polling when the fuel ends. *)
Theorem Run_never_raises
    (self : CurvatureSliders) (timeout : float) (fuel : nat) (w : World) :
  constructed self ->
  is_Some (Meshcat.sliders (meshcat w) !! name _Q1) ->
  is_Some (Meshcat.sliders (meshcat w) !! name _Q2) ->
  Meshcat.sliders (meshcat w) !! kButtonName = None ->
  length (default_positions (_plant self)) = 8 ->
  (exists w', Run fuel self timeout w = Done tt w')
  \/ (exists w', Run fuel self timeout w = Polling w').
Proof.
  intros Hc H1 H2 Hfree Hlen.
  rewrite (Run_enters_loop fuel self timeout w Hfree).
  apply Run_loop_never_raises; [exact Hc |].
  unfold pollable. cbn. rewrite lookup_insert_eq. eauto.
Qed.

End Program.

(** ** The constructor and the output port *)

Lemma taken_false (m : Meshcat.t) (x : string) :
  Meshcat.taken m x = false ->
  Meshcat.sliders m !! x = None /\ Meshcat.buttons m !! x = None.
Proof.
  unfold Meshcat.taken. intros H. apply orb_false_elim in H as [Hs Hb].
  apply bool_decide_eq_false in Hs, Hb.
  split; apply eq_None_not_Some; assumption.
Qed.

Lemma AddSlider_free (m : Meshcat.t) (x : string) (lo hi step v : float) :
  Meshcat.taken m x = false ->
  Meshcat.AddSlider x lo hi step v m
  = Ok (Meshcat.mk (<[x := Meshcat.mkSlider lo hi step v]> (Meshcat.sliders m))
                   (Meshcat.buttons m)).
Proof. intros H. unfold Meshcat.AddSlider. rewrite H. reflexivity. Qed.

(** C5: the constructor registers exactly two sliders, q1 and q2, each
    with minimum -2 pi, maximum 2 pi, step 0.1 and initial value 0.0: on
    controls where both names are free it returns, and the sliders
    afterwards are the earlier ones and these two. *)
Theorem init_registers_two_sliders (plant : Plant) (L : float) (w : World) :
  Meshcat.taken (meshcat w) "q1" = false ->
  Meshcat.taken (meshcat w) "q2" = false ->
  let s := Meshcat.mkSlider (-2.0 * np.pi) (2.0 * np.pi) 0.1 0.0 in
  exists self w',
    __init__ plant L w = Done self w'
    /\ Meshcat.sliders (meshcat w')
       = <["q2" := s]> (<["q1" := s]> (Meshcat.sliders (meshcat w)))
    /\ dom (Meshcat.sliders (meshcat w'))
       = {["q1"; "q2"]} ∪ dom (Meshcat.sliders (meshcat w))
    /\ size (Meshcat.sliders (meshcat w')) = 2 + size (Meshcat.sliders (meshcat w))
    /\ Meshcat.buttons (meshcat w') = Meshcat.buttons (meshcat w).
Proof.
  intros H1 H2 s.
  destruct (taken_false _ _ H1) as [Hs1 Hb1].
  destruct (taken_false _ _ H2) as [Hs2 Hb2].
  assert (Hs2' : <["q1" := s]> (Meshcat.sliders (meshcat w)) !! "q2" = None).
  { rewrite lookup_insert_ne by done. exact Hs2. }
  assert (Ht : Meshcat.taken
                 (Meshcat.mk (<["q1" := s]> (Meshcat.sliders (meshcat w)))
                             (Meshcat.buttons (meshcat w))) "q2" = false).
  { unfold Meshcat.taken. cbn. rewrite Hs2', Hb2. reflexivity. }
  unfold __init__. cbv zeta. change (name _Q1) with "q1". change (name _Q2) with "q2".
  change (default _Q1) with 0.0%float. change (default _Q2) with 0.0%float.
  unfold mbind at 1, M_bind at 1, tell at 1.
  rewrite (AddSlider_free _ _ _ _ _ _ H1). fold s.
  unfold mbind at 1, M_bind at 1, tell at 1. cbn [meshcat].
  rewrite (AddSlider_free _ _ _ _ _ _ Ht). fold s.
  eexists _, _. split; [reflexivity |]. cbn [meshcat Meshcat.sliders Meshcat.buttons].
  split; [reflexivity |]. split; [| split; [| reflexivity]].
  - rewrite !dom_insert_L, (assoc_L (∪)), (comm_L (∪) {["q2"]}). reflexivity.
  - rewrite map_size_insert_None by exact Hs2'.
    rewrite map_size_insert_None by exact Hs1. reflexivity.
Qed.

(** C6: the system declares one vector output port, named q1_q2, of
    size 2, and every run of [DoCalcOutput] writes the current value of
    slider q1 at index 0 and that of slider q2 at index 1 of the output;
    evaluating the port yields the pair of the two values. *)
Theorem output_port_q1_q2
    (plant : Plant) (L : float) (w0 w1 : World) (self : CurvatureSliders)
    (w : World) (s1 s2 : Meshcat.Slider) (output : list float) :
  __init__ plant L w0 = Done self w1 ->
  Meshcat.sliders (meshcat w) !! "q1" = Some s1 ->
  Meshcat.sliders (meshcat w) !! "q2" = Some s2 ->
  2 <= length output ->
  output_ports self = [mkOutputPort "q1_q2" 2 false]
  /\ (exists output',
        DoCalcOutput self output w = Done output' w
        /\ output' !! 0 = Some (Meshcat.s_value s1)
        /\ output' !! 1 = Some (Meshcat.s_value s2)
        /\ drop 2 output' = drop 2 output)
  /\ Eval self w = Done [Meshcat.s_value s1; Meshcat.s_value s2] w.
Proof.
  intros Hinit H1 H2 Hlen.
  assert (Hc : constructed self).
  { unfold __init__, mbind, M_bind, tell in Hinit. cbn in Hinit.
    repeat match type of Hinit with
           | context [match ?r with Ok _ => _ | Raise _ => _ end] =>
               destruct r; try discriminate
           end.
    cbn in Hinit. injection Hinit as <- _. reflexivity. }
  split; [exact Hc |]. split; [| apply Eval_sliders; assumption].
  destruct output as [|o0 [|o1 rest]]; cbn in Hlen; try lia.
  unfold DoCalcOutput, mbind, M_bind, ask, lift, Meshcat.GetSliderValue.
  change (name _Q1) with "q1". change (name _Q2) with "q2".
  rewrite H1, H2. cbn.
  eexists. split; [reflexivity |]. repeat split.
Qed.


(** ** Constructing on controls already in use *)

Lemma AddSlider_taken (m : Meshcat.t) (x : string) (lo hi step v : float) :
  Meshcat.taken m x = true ->
  Meshcat.AddSlider x lo hi step v m = Raise RuntimeError.
Proof. intros H. unfold Meshcat.AddSlider. rewrite H. reflexivity. Qed.

Lemma init_eq (plant : Plant) (L : float) (w : World) :
  __init__ plant L w =
  match Meshcat.AddSlider "q1" (-2.0 * np.pi) (2.0 * np.pi) 0.1 0.0 (meshcat w) with
  | Raise e => Raised e w
  | Ok m1 =>
      match Meshcat.AddSlider "q2" (-2.0 * np.pi) (2.0 * np.pi) 0.1 0.0 m1 with
      | Raise e => Raised e (with_controls m1 w)
      | Ok m2 => Done (mkSelf [mkOutputPort "q1_q2" 2 false] plant L) (with_controls m2 w)
      end
  end.
Proof.
  unfold __init__, mbind, M_bind, tell. cbv zeta.
  change (name _Q1) with "q1". change (name _Q2) with "q2".
  change (default _Q1) with 0.0%float. change (default _Q2) with 0.0%float.
  destruct (Meshcat.AddSlider "q1" _ _ _ _ (meshcat w)) as [m1|e]; [| reflexivity].
  cbn [meshcat].
  destruct (Meshcat.AddSlider "q2" _ _ _ _ m1) as [m2|e]; reflexivity.
Qed.

(** X14: two instances cannot share one Meshcat: once the constructor has
    succeeded, constructing again on the same controls (with any plant and
    rest length) raises, because the name q1 is in use, and changes
    nothing. *)
Theorem init_twice_raises
    (plant plant' : Plant) (L L' : float) (w w' : World) (self : CurvatureSliders) :
  __init__ plant L w = Done self w' ->
  __init__ plant' L' w' = Raised RuntimeError w'.
Proof.
  rewrite !init_eq. intros Hinit.
  destruct (Meshcat.taken (meshcat w) "q1") eqn:Ht1.
  { rewrite AddSlider_taken in Hinit by exact Ht1. discriminate. }
  rewrite AddSlider_free in Hinit by exact Ht1.
  match type of Hinit with
  | context [Meshcat.AddSlider "q2" _ _ _ _ ?m] =>
      destruct (Meshcat.taken m "q2") eqn:Ht2;
      [rewrite AddSlider_taken in Hinit by exact Ht2; discriminate
      | rewrite AddSlider_free in Hinit by exact Ht2]
  end.
  injection Hinit as _ <-.
  rewrite AddSlider_taken; [reflexivity |].
  unfold Meshcat.taken. cbn.
  rewrite lookup_insert_ne by done. rewrite lookup_insert_eq. reflexivity.
Qed.

(** X15: the constructor registers q1 before it tries q2: when the name q1
    is free and q2 is in use it raises, and slider q1 has by then been
    added to the controls. *)
Theorem init_partial_registration (plant : Plant) (L : float) (w : World) :
  Meshcat.taken (meshcat w) "q1" = false ->
  Meshcat.taken (meshcat w) "q2" = true ->
  __init__ plant L w
  = Raised RuntimeError
      (with_controls
         (Meshcat.mk (<["q1" := Meshcat.mkSlider (-2.0 * np.pi) (2.0 * np.pi) 0.1 0.0]>
                        (Meshcat.sliders (meshcat w)))
                     (Meshcat.buttons (meshcat w)))
         w).
Proof.
  intros H1 H2. rewrite init_eq, (AddSlider_free _ _ _ _ _ _ H1).
  rewrite AddSlider_taken; [reflexivity |].
  unfold Meshcat.taken in *. cbn.
  rewrite lookup_insert_ne by done. exact H2.
Qed.

(** ** The theorems on the example data *)

Example CC2AGRB_bent : CC2AGRB sin_series arm [1; 0]%float = Ok bent.
Proof. vm_compute. reflexivity. Qed.

(** A negative zero takes the straight-segment branch, a NaN the curved
    one; a one-element input has no [q[1]]. *)
Example CC2AGRB_corner_cases :
  CC2AGRB sin_series arm [-0.0; nan]%float
  = Ok [0; 0.1; 0.1; 0; nan; nan; nan; nan]%float
  /\ CC2AGRB sin_series arm [1]%float = Raise IndexError.
Proof. split; vm_compute; reflexivity. Qed.

Lemma CC2AGRB_total_witness :
  2 <= length [1; 0]%float
  /\ exists r, CC2AGRB sin_series arm [1; 0]%float = Ok r /\ length r = 8.
Proof.
  split; [cbn; lia |].
  apply (CC2AGRB_total sin_series arm [1; 0]%float). cbn. lia.
Defined.

Lemma Run_body_sets_and_publishes_witness :
  Eval arm world_moved = Done [1; 0]%float world_moved
  /\ Run_body sin_series clock_seconds arm default_timeout 0 world_moved
     = Done Again (mkWorld controls_moved bent 2 0 [Publish bent]).
Proof.
  apply (Run_body_sets_and_publishes sin_series clock_seconds arm default_timeout 0
           world_moved 0%Z (slider_at 1) (slider_at 0) bent).
  - reflexivity.
  - vm_compute. reflexivity.
  - lia.
  - vm_compute. reflexivity.
  - vm_compute. reflexivity.
  - vm_compute. reflexivity.
  - reflexivity.
  - vm_compute. reflexivity.
  - exists 0, 0.5%float, 0%float. repeat split; vm_compute; reflexivity.
Defined.

Lemma Run_body_keeps_context_witness :
  exists w',
    Run_body sin_series clock_seconds arm default_timeout 0 world_idle = Done Again w'
    /\ plant_context w' = straight
    /\ trace w' = [Sleep 0.01]
    /\ (forall q, Publish q ∉ drop 0 (trace w')).
Proof.
  apply (Run_body_keeps_context sin_series clock_seconds arm default_timeout 0
           world_idle 0%Z (slider_at 0) (slider_at 0) straight).
  - reflexivity.
  - vm_compute. reflexivity.
  - lia.
  - vm_compute. reflexivity.
  - vm_compute. reflexivity.
  - vm_compute. reflexivity.
  - reflexivity.
  - vm_compute. reflexivity.
  - intros i a b Ha Hb.
    do 8 (destruct i as [|i];
          [injection Ha as <-; injection Hb as <-; vm_compute; reflexivity |]).
    discriminate.
Defined.

Lemma Run_body_sleeps_when_idle_witness :
  trace (mkWorld controls_idle straight 2 0 [Sleep 0.01])
  = trace world_idle ++ (if within straight (plant_context world_idle)
                         then [Sleep 0.01] else [Publish straight]).
Proof.
  apply (Run_body_sleeps_when_idle sin_series clock_seconds arm default_timeout 0
           world_idle _ (slider_at 0) (slider_at 0) straight).
  - reflexivity.
  - vm_compute. reflexivity.
  - vm_compute. reflexivity.
  - reflexivity.
  - vm_compute. reflexivity.
  - vm_compute. reflexivity.
Defined.

(** C7 as stated fails: with the first slider moved to 1 the round sets and
    publishes the new positions and goes back to the poll; nothing it emits
    is a sleep. *)
Lemma Run_body_not_always_sleeping :
  ~ (forall (np_sin : float -> float) (wall_clock : nat -> float)
            (self : CurvatureSliders) (timeout t0 : float) (w w' : World),
        constructed self -> pollable w ->
        Run_body np_sin wall_clock self timeout t0 w = Done Again w' ->
        Sleep 0.01 ∈ drop (length (trace w)) (trace w')).
Proof.
  intros H.
  specialize (H sin_series clock_seconds arm default_timeout 0%float world_moved
                (mkWorld controls_moved bent 2 0 [Publish bent])).
  assert (Hin : Sleep 0.01 ∈ [Publish bent]).
  { apply H.
    - reflexivity.
    - unfold pollable. repeat split; try (eexists; vm_compute; reflexivity).
    - vm_compute. reflexivity. }
  apply list_elem_of_singleton in Hin. discriminate.
Qed.

Lemma Run_loop_exits_exactly_witness :
  (forall fuel, fuel <= 5 ->
     exists w', Run_loop sin_series clock_seconds session fuel arm default_timeout 0
                  world_idle = Polling w')
  /\ (exists w', Run_loop sin_series clock_seconds session 6 arm default_timeout 0
                   world_idle = Done tt w'
                 /\ polls w' = polls world_idle + 6).
Proof.
  destruct (Run_loop_exits_exactly sin_series clock_seconds session arm
              default_timeout 0 world_idle 5) as [Hpolling Hleaves].
  - reflexivity.
  - unfold pollable. repeat split; try (eexists; vm_compute; reflexivity).
  - intros k Hk.
    do 5 (destruct k as [|k]; [vm_compute; reflexivity |]). lia.
  - split; [exact Hpolling |].
    apply Hleaves; [vm_compute; reflexivity | lia].
Defined.

Lemma init_registers_two_sliders_witness :
  let s := Meshcat.mkSlider (-2.0 * np.pi) (2.0 * np.pi) 0.1 0.0 in
  exists self w',
    __init__ (mkPlant straight) default_L world_empty = Done self w'
    /\ Meshcat.sliders (meshcat w')
       = <["q2" := s]> (<["q1" := s]> (Meshcat.sliders (meshcat world_empty)))
    /\ dom (Meshcat.sliders (meshcat w'))
       = {["q1"; "q2"]} ∪ dom (Meshcat.sliders (meshcat world_empty))
    /\ size (Meshcat.sliders (meshcat w')) = 2 + size (Meshcat.sliders (meshcat world_empty))
    /\ Meshcat.buttons (meshcat w') = Meshcat.buttons (meshcat world_empty).
Proof.
  apply (init_registers_two_sliders (mkPlant straight) default_L world_empty);
    vm_compute; reflexivity.
Defined.

Lemma output_port_q1_q2_witness :
  output_ports arm = [mkOutputPort "q1_q2" 2 false]
  /\ (exists output',
        DoCalcOutput arm [nan; nan]%float world_moved = Done output' world_moved
        /\ output' !! 0 = Some 1%float
        /\ output' !! 1 = Some 0%float
        /\ drop 2 output' = [])
  /\ Eval arm world_moved = Done [1; 0]%float world_moved.
Proof.
  apply (output_port_q1_q2 (mkPlant straight) default_L world_empty
           (mkWorld (Meshcat.mk (<["q2" := slider_at 0]> (<["q1" := slider_at 0]> ∅)) ∅)
                    [] 0 0 [])
           arm world_moved (slider_at 1) (slider_at 0) [nan; nan]%float).
  - vm_compute. reflexivity.
  - vm_compute. reflexivity.
  - vm_compute. reflexivity.
  - cbn. lia.
Defined.

(** The whole program on the example session: construct the sliders on
    empty controls, then run.  The first two rounds sleep, the third
    publishes the bent arm without sleeping, the next two sleep, and the
    sixth evaluation of the condition sees the click and leaves. *)
Example session_run :
  (self ← __init__ (mkPlant straight) default_L;
   Run sin_series clock_seconds session 10 self default_timeout) world_empty
  = Done tt (mkWorld
               (Meshcat.mk (<["q2" := slider_at 0]> (<["q1" := slider_at 1]> ∅))
                           (<[kButtonName := 1%Z]> ∅))
               bent 6 6
               [LogInfo "Press the '{}' button in Meshcat to continue." kButtonName;
                Publish straight; Sleep 0.01; Sleep 0.01; Publish bent;
                Sleep 0.01; Sleep 0.01]).
Proof. vm_compute. reflexivity. Qed.

(** With a timeout of 3.5 seconds the same session leaves at the fourth
    clock reading of the loop (4 seconds after the start), before the
    click. *)
Example session_times_out :
  (self ← __init__ (mkPlant straight) default_L;
   Run sin_series clock_seconds session 10 self 3.5) world_empty
  = Done tt (mkWorld
               (Meshcat.mk (<["q2" := slider_at 0]> (<["q1" := slider_at 1]> ∅))
                           (<[kButtonName := 0%Z]> ∅))
               bent 5 4
               [LogInfo "Press the '{}' button in Meshcat to continue." kButtonName;
                Publish straight; Sleep 0.01; Sleep 0.01; Publish bent]).
Proof. vm_compute. reflexivity. Qed.

(** ** The further properties on the example data *)

Lemma CC2AGRB_short_input_witness :
  CC2AGRB sin_series arm [1]%float = Raise IndexError.
Proof. apply (CC2AGRB_short_input sin_series arm [1]%float). cbn. lia. Defined.

Lemma SetConfiguration_short_input_witness :
  SetConfiguration [] world_idle = Raised IndexError world_idle
  /\ SetConfiguration [1]%float world_idle = Raised IndexError world_moved.
Proof.
  apply (SetConfiguration_short_input 1 world_idle controls_moved).
  vm_compute. reflexivity.
Defined.

Lemma Run_body_leave_is_silent_witness :
  trace (tick world_idle) = trace world_idle
  /\ plant_context (tick world_idle) = plant_context world_idle
  /\ meshcat (tick world_idle) = meshcat world_idle
  /\ polls (tick world_idle) = polls world_idle.
Proof.
  apply (Run_body_leave_is_silent sin_series clock_seconds arm 0.5 0
           world_idle (tick world_idle)).
  vm_compute. reflexivity.
Defined.

Lemma Run_first_frame_witness :
  exists rest,
    trace (world_of (Run sin_series clock_seconds session 10 arm default_timeout
                         world_idle))
    = trace world_idle
      ++ [LogInfo "Press the '{}' button in Meshcat to continue." kButtonName;
          Publish (default_positions (_plant arm))] ++ rest.
Proof.
  apply (Run_first_frame sin_series clock_seconds session arm default_timeout 10
           world_idle).
  vm_compute. reflexivity.
Defined.

Lemma Run_last_frame_is_context_witness :
  last_publish (trace (world_of (Run sin_series clock_seconds session 10 arm
                                     default_timeout world_idle)))
  = Some (plant_context (world_of (Run sin_series clock_seconds session 10 arm
                                       default_timeout world_idle))).
Proof.
  apply (Run_last_frame_is_context sin_series clock_seconds session arm
           default_timeout 10 world_idle).
  vm_compute. reflexivity.
Defined.

Lemma Run_body_wrong_plant_witness :
  Run_body sin_series clock_seconds arm default_timeout 0 world_three
  = Raised ValueError (tick world_three).
Proof.
  apply (Run_body_wrong_plant sin_series clock_seconds arm default_timeout 0
           world_three 0%Z (slider_at 0) (slider_at 0)).
  - reflexivity.
  - vm_compute. reflexivity.
  - lia.
  - vm_compute. reflexivity.
  - vm_compute. reflexivity.
  - vm_compute. reflexivity.
  - cbn. lia.
  - cbn. lia.
Defined.

Lemma Run_body_tracks_sliders_witness :
  exists w',
    Run_body sin_series clock_seconds arm default_timeout 0 world_moved = Done Again w'
    /\ (plant_context w' = bent
        \/ (plant_context w' = plant_context world_moved
            /\ forall i a b, bent !! i = Some a -> plant_context w' !! i = Some b ->
                             (abs (a - b) <? 0.001)%float = true)).
Proof.
  apply (Run_body_tracks_sliders sin_series clock_seconds arm default_timeout 0
           world_moved 0%Z (slider_at 1) (slider_at 0) bent).
  - reflexivity.
  - vm_compute. reflexivity.
  - lia.
  - vm_compute. reflexivity.
  - vm_compute. reflexivity.
  - vm_compute. reflexivity.
  - reflexivity.
  - vm_compute. reflexivity.
Defined.

Lemma Run_body_nan_slider_witness :
  Run_body sin_series clock_seconds arm default_timeout 0 world_nan
  = Done Again (published [nan; nan; nan; nan; 0; 0.1; 0.1; 0]%float (tick world_nan)).
Proof.
  apply (Run_body_nan_slider sin_series clock_seconds arm default_timeout 0
           world_nan 0%Z (slider_at nan) (slider_at 0)).
  - reflexivity.
  - vm_compute. reflexivity.
  - lia.
  - vm_compute. reflexivity.
  - vm_compute. reflexivity.
  - vm_compute. reflexivity.
  - reflexivity.
  - vm_compute. reflexivity.
  - left. reflexivity.
Defined.

Lemma Eval_reads_sliders_witness :
  Eval arm world_empty = Raised RuntimeError world_empty
  /\ Eval arm world_moved = Done [1; 0]%float world_moved.
Proof.
  split.
  - apply (Eval_reads_sliders arm world_empty). reflexivity.
  - apply (Eval_reads_sliders arm world_moved). reflexivity.
Defined.

Lemma init_twice_raises_witness :
  __init__ (mkPlant bent) 0.5 world_constructed = Raised RuntimeError world_constructed.
Proof.
  apply (init_twice_raises (mkPlant straight) (mkPlant bent) default_L 0.5
           world_empty world_constructed arm).
  vm_compute. reflexivity.
Defined.

Lemma init_partial_registration_witness :
  __init__ (mkPlant straight) default_L world_q2_taken
  = Raised RuntimeError world_constructed.
Proof.
  apply (init_partial_registration (mkPlant straight) default_L world_q2_taken);
    vm_compute; reflexivity.
Defined.

Lemma Run_never_raises_witness :
  (exists w', Run sin_series clock_seconds session 10 arm default_timeout world_constructed
              = Done tt w')
  \/ (exists w', Run sin_series clock_seconds session 10 arm default_timeout
                   world_constructed = Polling w').
Proof.
  apply (Run_never_raises sin_series clock_seconds session arm default_timeout 10
           world_constructed).
  - reflexivity.
  - eexists. vm_compute. reflexivity.
  - eexists. vm_compute. reflexivity.
  - vm_compute. reflexivity.
  - reflexivity.
Defined.
